(** * AWS Lambda image-processing workflow: the front end, verified

    A shallow embedding of [types.ts], [services/geminiService.ts] and the
    [App] component: the workflow handler [handleStartWorkflow], the local
    task [applyImageProcessing], and the parts of the render function that
    read the workflow state.

    - JavaScript strings are [string], numbers taken from the size tables
      are [Z], a value that may be [undefined] is a [JsVal], and [null] is
      [None].
    - A promise is modelled by the way it settles ([Settled]); every
      operation is taken to settle.
    - Effects are explicit. An [async] function is a state-and-exception
      computation ([Async]): the generators run over the log of requests and
      console lines, the event handler over the React state, the trace of
      its own effects, and that log.
    - The hosted model and the browser are parameters ([Api], [Browser]). *)

From Stdlib Require Import ZArith List String Lia.
From Stdlib Require Import DecimalString.
Import ListNotations.
Open Scope string_scope.
Open Scope Z_scope.

(** ** types.ts *)

(** [ProcessingOptions]: the two fields are strings at run time; the
    TypeScript unions name the values the two [<select>] elements offer. *)
Record ProcessingOptions : Type := mkOptions {
  size : string;
  filter : string
}.

Inductive WorkflowStep : Type :=
| UPLOAD
| PROCESS
| MONITOR
| DONE.

Definition WorkflowStep_value (s : WorkflowStep) : Z :=
  match s with
  | UPLOAD => 0
  | PROCESS => 1
  | MONITOR => 2
  | DONE => 3
  end.

(** The values admitted by the type [ProcessingOptions['size']]. *)
Definition valid_size (s : string) : Prop :=
  s = "thumbnail" \/ s = "medium" \/ s = "large".

(** ** JavaScript values used by the code *)

Inductive JsVal : Type :=
| JsUndefined
| JsNum (n : Z).

(** What a promise is rejected with, or what a [throw] carries. *)
Inductive Reason : Type :=
| ReasonError (message : string)   (* new Error(message) *)
| ReasonEvent (type : string).     (* a DOM event, as passed to img.onerror *)

(** One entry of the array [Promise.allSettled] resolves with. *)
Inductive Settled (A : Type) : Type :=
| Fulfilled (value : A)
| Rejected (reason : Reason).
Arguments Fulfilled {A} value.
Arguments Rejected {A} reason.

Definition is_fulfilled {A} (r : Settled A) : bool :=
  match r with
  | Fulfilled _ => true
  | Rejected _ => false
  end.

(** Truthiness of a string. *)
Definition truthy_string (s : string) : bool :=
  negb (String.eqb s EmptyString).

(** [a || b] on strings. *)
Definition or_string (a b : string) : string :=
  if truthy_string a then a else b.

(** Template-literal interpolation of a number from the size tables. *)
Definition showNumber (n : Z) : string :=
  NilZero.string_of_int (Z.to_int n).

(** ** services/geminiService.ts: the size table *)

Record Dimensions : Type := mkDimensions {
  width : Z;
  height : Z
}.

Definition getProcessingDimensions (size : string) : Dimensions :=
  if String.eqb size "thumbnail" then mkDimensions 150 150
  else if String.eqb size "medium" then mkDimensions 500 500
  else if String.eqb size "large" then mkDimensions 1024 1024
  else mkDimensions 500 500.

(** ** App: the tables of [applyImageProcessing] *)

(** The object literal indexed by [options.size]; a key it does not own
    yields no number. *)
Definition canvasDimensions (size : string) : JsVal :=
  if String.eqb size "thumbnail" then JsNum 150
  else if String.eqb size "medium" then JsNum 500
  else if String.eqb size "large" then JsNum 1024
  else JsUndefined.

(** The [switch] over [options.filter]. *)
Definition filterCssOf (filter : string) : string :=
  if String.eqb filter "grayscale" then "grayscale(100%)"
  else if String.eqb filter "sepia" then "sepia(100%)"
  else if String.eqb filter "invert" then "invert(100%)"
  else "none".

(** ** Asynchronous functions

    An [async] function over a state [S]: run from a state, it settles
    (fulfilled with its return value, or rejected with what it threw) and
    leaves a state. [await] of a rejected promise throws its reason. *)
Definition Async (S A : Type) : Type := S -> Settled A * S.

Definition ret {S A} (a : A) : Async S A :=
  fun s => (Fulfilled a, s).

Definition throw {S A} (e : Reason) : Async S A :=
  fun s => (Rejected e, s).

Definition bind {S A B} (m : Async S A) (k : A -> Async S B) : Async S B :=
  fun s =>
    match m s with
    | (Fulfilled a, s') => k a s'
    | (Rejected e, s') => (Rejected e, s')
    end.

Notation "x <- m ;; k" := (bind m (fun x => k))
  (at level 61, m at next level, right associativity).
Notation "m ;; k" := (bind m (fun _ => k))
  (at level 61, right associativity).

(** [try { body } catch (e) { handler e }] *)
Definition try_catch {S A} (body : Async S A) (handler : Reason -> Async S A)
  : Async S A :=
  fun s =>
    match body s with
    | (Fulfilled a, s') => (Fulfilled a, s')
    | (Rejected e, s') => handler e s'
    end.

(** [try { body } finally { fin }]: [fin] runs on both exits; when it
    completes normally the outcome of [body] stands. *)
Definition try_finally {S A} (body : Async S A) (fin : Async S unit)
  : Async S A :=
  fun s =>
    match body s with
    | (r, s') =>
        match fin s' with
        | (Fulfilled _, s'') => (r, s'')
        | (Rejected e, s'') => (Rejected e, s'')
        end
    end.

(** ** The hosted model and the console *)

Record Request : Type := mkRequest {
  model : string;
  contents : string
}.

Record Response : Type := mkResponse {
  text : string
}.

Inductive ApiResult : Type :=
| ApiResponse (response : Response)
| ApiError (e : Reason).

(** The hosted model: its answer to the [n]-th request issued (from 0). *)
Definition Api : Type := nat -> Request -> ApiResult.

(** One call of [console.error]. *)
Inductive ConsoleLine : Type :=
| ConsoleError (label : option string) (err : Reason).

Record SvcLog : Type := mkSvcLog {
  requests : list Request;
  console : list ConsoleLine
}.

Definition emptyLog : SvcLog := mkSvcLog [] [].

(** [await ai.models.generateContent(req)] *)
Definition generateContent (api : Api) (req : Request) : Async SvcLog Response :=
  fun l =>
    let l' := mkSvcLog (requests l ++ [req])%list (console l) in
    match api (List.length (requests l)) req with
    | ApiResponse r => (Fulfilled r, l')
    | ApiError e => (Rejected e, l')
    end.

Definition console_error (label : option string) (err : Reason)
  : Async SvcLog unit :=
  fun l => (Fulfilled tt, mkSvcLog (requests l) (console l ++ [ConsoleError label err])%list).

(** ** services/geminiService.ts: the two generators *)

Definition nl : string := String (Ascii.ascii_of_nat 10) EmptyString.

Definition lines (ls : list string) : string := String.concat nl ls.

(** The constant [filterName] of [generateProcessingCode]; the prompt does
    not mention it. *)
Definition filterName (options : ProcessingOptions) : string :=
  if String.eqb (filter options) "grayscale" then "L" else "RGB".

Definition codePrompt (options : ProcessingOptions) : string :=
  let d := getProcessingDimensions (size options) in
  lines [
    EmptyString;
    "You are an expert Python developer specializing in image processing with AWS Lambda.";
    "Generate a complete, self-contained Python Lambda handler function using the Pillow (PIL) library.";
    EmptyString;
    "The function should:";
    "1. Be named `lambda_handler`.";
    "2. Accept `event` and `context` arguments.";
    "3. For demonstration, open a placeholder image named 'input_image.jpg'.";
    "4. Resize the image to " ++ showNumber (width d) ++ "x" ++ showNumber (height d) ++ " pixels.";
    (if negb (String.eqb (filter options) "none")
     then "5. Apply a '" ++ filter options ++ "' filter."
     else "5. Perform no color filtering.");
    "6. Save the processed image to a placeholder path '/tmp/processed_image.jpg'.";
    "7. Return a success response including the path of the saved file.";
    EmptyString;
    "Do not include code for fetching from or saving to S3. Focus only on the image manipulation logic within the handler.";
    "Provide only the Python code in a single block, without any introductory text, explanations, or markdown formatting.";
    EmptyString
  ].

Definition generateProcessingCode (api : Api) (options : ProcessingOptions)
  : Async SvcLog string :=
  let prompt := codePrompt options in
  try_catch
    (response <- generateContent api (mkRequest "gemini-2.5-pro" prompt) ;;
     ret (text response))
    (fun error =>
       console_error (Some "Error generating processing code:") error ;;
       ret "Error: Could not generate code.").

Definition logsPrompt (options : ProcessingOptions) (filename : string) : string :=
  let d := getProcessingDimensions (size options) in
  lines [
    EmptyString;
    "Generate a realistic, multi-line AWS CloudWatch log entry for a Python Lambda function that successfully processed an image from S3.";
    EmptyString;
    "The log must include the following lines, in order:";
    "1. A START line with a unique RequestId.";
    "2. A line logging 'Processing image: " ++ filename ++ "'.";
    "3. A line logging 'Applying filter: " ++ filter options ++ " and resizing to "
      ++ showNumber (width d) ++ "x" ++ showNumber (height d) ++ "'.";
    "4. A line logging 'Image processing complete. Saved to /tmp/processed_image.jpg'.";
    "5. An END line with the same RequestId.";
    "6. A REPORT line with the same RequestId, and plausible random values for Duration (between 200-800ms), Billed Duration (slightly higher than Duration), Memory Size (128 MB), and Max Memory Used (between 60-100 MB).";
    EmptyString;
    "Provide only the log text, without any introductory text, explanations or markdown formatting.";
    EmptyString
  ].

Definition generateMonitoringLogs (api : Api) (options : ProcessingOptions)
    (filename : string) : Async SvcLog string :=
  let prompt := logsPrompt options filename in
  try_catch
    (response <- generateContent api (mkRequest "gemini-2.5-flash" prompt) ;;
     ret (text response))
    (fun error =>
       console_error (Some "Error generating logs:") error ;;
       ret "Error: Could not generate logs.").

(** ** App: applyImageProcessing *)

(** One call of [ctx.drawImage(img, dx, dy, dw, dh)]; the image is named by
    the URL it was loaded from. *)
Record DrawImage : Type := mkDrawImage {
  draw_src : string;
  draw_dx : Z;
  draw_dy : Z;
  draw_dw : JsVal;
  draw_dh : JsVal
}.

(** A canvas with its 2D context: the values the code assigns and the
    drawing calls it makes, in order. *)
Record Canvas : Type := mkCanvas {
  canvas_width : JsVal;
  canvas_height : JsVal;
  ctx_filter : string;
  drawn : list DrawImage
}.

(** [document.createElement('canvas')] *)
Definition createCanvas : Canvas :=
  mkCanvas (JsNum 300) (JsNum 150) "none" [].

(** The browser: whether an image URL loads ([onload]) or not ([onerror]),
    whether a 2D context can be had, and the encoder behind
    [canvas.toDataURL(type)]. *)
Record Browser : Type := mkBrowser {
  imageLoads : string -> bool;
  context2d : bool;
  toDataURL : Canvas -> string -> string
}.

(** The body of [img.onload] once the context is there, up to the call of
    [toDataURL]. *)
Definition drawProcessed (imageUrl : string) (options : ProcessingOptions)
  : Canvas :=
  let canvas := createCanvas in
  let dimensions := canvasDimensions (size options) in
  let canvas := mkCanvas dimensions (canvas_height canvas)
                         (ctx_filter canvas) (drawn canvas) in
  let canvas := mkCanvas (canvas_width canvas) dimensions
                         (ctx_filter canvas) (drawn canvas) in
  let filterCss := filterCssOf (filter options) in
  let canvas := mkCanvas (canvas_width canvas) (canvas_height canvas)
                         filterCss (drawn canvas) in
  mkCanvas (canvas_width canvas) (canvas_height canvas) (ctx_filter canvas)
           (drawn canvas ++ [mkDrawImage imageUrl 0 0 dimensions dimensions])%list.

(** How the promise returned by [applyImageProcessing] settles. *)
Definition applyImageProcessing_settles (b : Browser) (imageUrl : string)
    (options : ProcessingOptions) : Settled string :=
  if imageLoads b imageUrl then
    if context2d b then
      Fulfilled (toDataURL b (drawProcessed imageUrl options) "image/jpeg")
    else Rejected (ReasonError "Could not get canvas context")
  else Rejected (ReasonEvent "error").

(** The task touches neither the hosted model nor the console. *)
Definition applyImageProcessing (b : Browser) (imageUrl : string)
    (options : ProcessingOptions) : Async SvcLog string :=
  fun l => (applyImageProcessing_settles b imageUrl options, l).

(** ** App: the component state *)

Record File : Type := mkFile {
  name : string
}.

Inductive Tab : Type :=
| TabCode
| TabLogs.

(** The [useState] cells of [App]. *)
Record AppState : Type := mkAppState {
  imageFile : option File;
  imageUrl : option string;
  processedImageUrl : option string;
  options : ProcessingOptions;
  currentStep : WorkflowStep;
  pythonCode : string;
  cloudwatchLogs : string;
  isLoading : bool;
  error : option string;
  activeTab : Tab
}.

Definition initialState : AppState :=
  mkAppState None None None (mkOptions "medium" "none") UPLOAD
             EmptyString EmptyString false None TabCode.

(** The operations the handler starts. *)
Inductive Operation : Type :=
| OpGenerateProcessingCode
| OpGenerateMonitoringLogs
| OpApplyImageProcessing.

(** The effects of the handler itself, in program order. *)
Inductive Event : Type :=
| EvSetIsLoading (v : bool)
| EvSetProcessedImageUrl (v : option string)
| EvSetCurrentStep (v : WorkflowStep)
| EvSetPythonCode (v : string)
| EvSetCloudwatchLogs (v : string)
| EvSetError (v : option string)
| EvTimeout (ms : Z)                    (* await new Promise(res => setTimeout(res, ms)) *)
| EvStarted (op : Operation)            (* the call that creates the operation's promise *)
| EvAllSettled (ops : list Operation).  (* await Promise.allSettled([...]) *)

(** What the handler runs over: the React state, the trace of its effects,
    and the log shared with the services. *)
Record HState : Type := mkHState {
  ui : AppState;
  trace : list Event;
  svc : SvcLog
}.

Definition emit (e : Event) (f : AppState -> AppState) : Async HState unit :=
  fun h => (Fulfilled tt, mkHState (f (ui h)) (trace h ++ [e])%list (svc h)).

Definition setIsLoading (v : bool) : Async HState unit :=
  emit (EvSetIsLoading v) (fun s =>
    mkAppState (imageFile s) (imageUrl s) (processedImageUrl s) (options s)
               (currentStep s) (pythonCode s) (cloudwatchLogs s) v (error s)
               (activeTab s)).

Definition setProcessedImageUrl (v : option string) : Async HState unit :=
  emit (EvSetProcessedImageUrl v) (fun s =>
    mkAppState (imageFile s) (imageUrl s) v (options s)
               (currentStep s) (pythonCode s) (cloudwatchLogs s) (isLoading s)
               (error s) (activeTab s)).

Definition setCurrentStep (v : WorkflowStep) : Async HState unit :=
  emit (EvSetCurrentStep v) (fun s =>
    mkAppState (imageFile s) (imageUrl s) (processedImageUrl s) (options s)
               v (pythonCode s) (cloudwatchLogs s) (isLoading s) (error s)
               (activeTab s)).

Definition setPythonCode (v : string) : Async HState unit :=
  emit (EvSetPythonCode v) (fun s =>
    mkAppState (imageFile s) (imageUrl s) (processedImageUrl s) (options s)
               (currentStep s) v (cloudwatchLogs s) (isLoading s) (error s)
               (activeTab s)).

Definition setCloudwatchLogs (v : string) : Async HState unit :=
  emit (EvSetCloudwatchLogs v) (fun s =>
    mkAppState (imageFile s) (imageUrl s) (processedImageUrl s) (options s)
               (currentStep s) (pythonCode s) v (isLoading s) (error s)
               (activeTab s)).

Definition setError (v : option string) : Async HState unit :=
  emit (EvSetError v) (fun s =>
    mkAppState (imageFile s) (imageUrl s) (processedImageUrl s) (options s)
               (currentStep s) (pythonCode s) (cloudwatchLogs s) (isLoading s)
               v (activeTab s)).

(** [await new Promise(res => setTimeout(res, ms))] *)
Definition timeout (ms : Z) : Async HState unit :=
  emit (EvTimeout ms) (fun s => s).

(** [console.error(err)] from the handler. *)
Definition handler_console_error (err : Reason) : Async HState unit :=
  fun h =>
    let logged := console_error None err (svc h) in
    (fst logged, mkHState (ui h) (trace h) (snd logged)).

(** A promise held by the handler: the operation behind it and the way it
    settles. *)
Definition Promise (A : Type) : Type := (Operation * Settled A)%type.

(** Calling a promise-returning function: the call itself never throws.
    The callee works on the service log only; its effects are entered in the
    log at the call, those after its first [await] included (they touch no
    React state, and the handler does nothing until the join). *)
Definition start {A} (op : Operation) (f : Async SvcLog A)
  : Async HState (Promise A) :=
  fun h =>
    let settled := f (svc h) in
    (Fulfilled (op, fst settled),
     mkHState (ui h) (trace h ++ [EvStarted op])%list (snd settled)).

(** [await Promise.allSettled([p1, p2, p3])]: never throws. *)
Definition allSettled3 {A B C} (p1 : Promise A) (p2 : Promise B) (p3 : Promise C)
  : Async HState (Settled A * Settled B * Settled C) :=
  fun h =>
    (Fulfilled (snd p1, snd p2, snd p3),
     mkHState (ui h) (trace h ++ [EvAllSettled [fst p1; fst p2; fst p3]])%list
              (svc h)).

(** [err.message], [undefined] when [err] is not an [Error]. *)
Definition message_of (err : Reason) : string :=
  match err with
  | ReasonError m => m
  | ReasonEvent _ => EmptyString
  end.

(** The three functions [App] imports or defines at module level. *)
Record Operations : Type := mkOperations {
  op_generateProcessingCode : ProcessingOptions -> Async SvcLog string;
  op_generateMonitoringLogs : ProcessingOptions -> string -> Async SvcLog string;
  op_applyImageProcessing : string -> ProcessingOptions -> Async SvcLog string
}.

(** ** App: the workflow *)

Definition resetWorkflow : Async HState unit :=
  setProcessedImageUrl None ;;
  setCurrentStep UPLOAD ;;
  setPythonCode EmptyString ;;
  setCloudwatchLogs EmptyString ;;
  setError None.

(** The [try] block of [handleStartWorkflow]. *)
Definition workflowTry (ops : Operations) (file : File) (url : string)
    (opts : ProcessingOptions) : Async HState unit :=
  (* 1. Simulate Upload *)
  timeout 500 ;;
  setCurrentStep PROCESS ;;
  (* 2. Kick off parallel tasks *)
  codePromise <- start OpGenerateProcessingCode
                   (op_generateProcessingCode ops opts) ;;
  logsPromise <- start OpGenerateMonitoringLogs
                   (op_generateMonitoringLogs ops opts (name file)) ;;
  processedImagePromise <- start OpApplyImageProcessing
                             (op_applyImageProcessing ops url opts) ;;
  results <- allSettled3 codePromise logsPromise processedImagePromise ;;
  let '(codeResult, logsResult, processedImageResult) := results in
  match codeResult with
  | Fulfilled value => setPythonCode value
  | Rejected _ => throw (ReasonError "Failed to generate code.")
  end ;;
  match processedImageResult with
  | Fulfilled value => setProcessedImageUrl (Some value)
  | Rejected _ => throw (ReasonError "Failed to process image.")
  end ;;
  (* 3. Move to monitoring step *)
  setCurrentStep MONITOR ;;
  timeout 500 ;;
  match logsResult with
  | Fulfilled value => setCloudwatchLogs value
  | Rejected _ => throw (ReasonError "Failed to generate logs.")
  end ;;
  (* 4. Finish *)
  setCurrentStep DONE.

(** The [catch] block. *)
Definition workflowCatch (err : Reason) : Async HState unit :=
  handler_console_error err ;;
  setError (Some (or_string (message_of err)
                            "An error occurred during the workflow.")) ;;
  setCurrentStep UPLOAD.

Definition handleStartWorkflow (ops : Operations) : Async HState unit :=
  fun h =>
    match imageFile (ui h), imageUrl (ui h) with
    | Some file, Some url =>
        if truthy_string url then
          (setIsLoading true ;;
           resetWorkflow ;;
           try_finally
             (try_catch (workflowTry ops file url (options (ui h)))
                        workflowCatch)
             (setIsLoading false)) h
        else ret tt h
    | _, _ => ret tt h
    end.

(** The application as shipped: the two generators of
    [services/geminiService.ts] over a hosted model, and
    [applyImageProcessing] over a browser. *)
Definition appOperations (api : Api) (b : Browser) : Operations :=
  mkOperations (generateProcessingCode api)
               (generateMonitoringLogs api)
               (applyImageProcessing b).

(** A click on the button: the handler run from a React state, with an
    empty trace and an empty log. *)
Definition click (ops : Operations) (s : AppState) : Settled unit * HState :=
  handleStartWorkflow ops (mkHState s [] emptyLog).

(** ** App: what the render function derives from the state *)

(** A [File] object is truthy, [null] is not. *)
Definition truthy_file (f : option File) : bool :=
  match f with
  | None => false
  | Some _ => true
  end.

Definition isButtonDisabled (s : AppState) : bool :=
  negb (truthy_file (imageFile s)) || isLoading s.

(** The text of the result pane. *)
Definition resultPaneText (s : AppState) : string :=
  match activeTab s with
  | TabCode =>
      or_string (pythonCode s)
                "Python code for the Lambda function will appear here..."
  | TabLogs =>
      or_string (cloudwatchLogs s)
                "Simulated CloudWatch logs will appear here..."
  end.

(** ** Vocabulary for the statements *)

(** How the three operations settle when the handler starts them in its
    order (code, logs, image) from a log [l]. *)
Definition operationResults (ops : Operations) (file : File) (url : string)
    (opts : ProcessingOptions) (l : SvcLog)
  : Settled string * Settled string * Settled string :=
  let (code, l1) := op_generateProcessingCode ops opts l in
  let (logs, l2) := op_generateMonitoringLogs ops opts (name file) l1 in
  let (image, _) := op_applyImageProcessing ops url opts l2 in
  (code, logs, image).

(** The operations started in a trace, in order. *)
Fixpoint startedOps (t : list Event) : list Operation :=
  match t with
  | [] => []
  | EvStarted op :: t' => op :: startedOps t'
  | _ :: t' => startedOps t'
  end.

(** The joins of a trace, in order. *)
Fixpoint joins (t : list Event) : list (list Operation) :=
  match t with
  | [] => []
  | EvAllSettled ops :: t' => ops :: joins t'
  | _ :: t' => joins t'
  end.

(** The values [currentStep] is given in a trace, in order. *)
Fixpoint stepsOf (t : list Event) : list WorkflowStep :=
  match t with
  | [] => []
  | EvSetCurrentStep v :: t' => v :: stepsOf t'
  | _ :: t' => stepsOf t'
  end.

(** The handler is ready to run: a file is selected and its data URL has
    been read. *)
Definition hasImage (s : AppState) (file : File) (url : string) : Prop :=
  imageFile s = Some file /\ imageUrl s = Some url /\ truthy_string url = true.

(** The events up to and including the join, the same in every run that
    passes the guard. *)
Definition tracePrefix : list Event :=
  [EvSetIsLoading true;
   EvSetProcessedImageUrl None; EvSetCurrentStep UPLOAD;
   EvSetPythonCode EmptyString; EvSetCloudwatchLogs EmptyString;
   EvSetError None;
   EvTimeout 500; EvSetCurrentStep PROCESS;
   EvStarted OpGenerateProcessingCode;
   EvStarted OpGenerateMonitoringLogs;
   EvStarted OpApplyImageProcessing;
   EvAllSettled [OpGenerateProcessingCode; OpGenerateMonitoringLogs;
                 OpApplyImageProcessing]].

(** The request each generator sends. *)
Definition codeRequest (opts : ProcessingOptions) : Request :=
  mkRequest "gemini-2.5-pro" (codePrompt opts).

Definition logsRequest (opts : ProcessingOptions) (filename : string) : Request :=
  mkRequest "gemini-2.5-flash" (logsPrompt opts filename).

(** The claim that every completed operation has its result stored,
    whatever the other two did. *)
Definition completed_results_stored (ops : Operations) (s : AppState)
    (file : File) (url : string) : Prop :=
  let '(code, logs, image) :=
    operationResults ops file url (options s) emptyLog in
  let s' := ui (snd (click ops s)) in
  (forall v, code = Fulfilled v -> pythonCode s' = v) /\
  (forall v, image = Fulfilled v -> processedImageUrl s' = Some v) /\
  (forall v, logs = Fulfilled v -> cloudwatchLogs s' = v).

(** Some operation was rejected. *)
Definition anyRejected
    (r : Settled string * Settled string * Settled string) : bool :=
  let '(code, logs, image) := r in
  negb (is_fulfilled code && is_fulfilled logs && is_fulfilled image).


(** ** App: the file input and the effect on [imageFile] *)

(** The state after [setImageFile(v)] and after [setImageUrl(v)]. *)
Definition setImageFile (v : option File) (s : AppState) : AppState :=
  mkAppState v (imageUrl s) (processedImageUrl s) (options s) (currentStep s)
             (pythonCode s) (cloudwatchLogs s) (isLoading s) (error s)
             (activeTab s).

Definition setImageUrl (v : option string) (s : AppState) : AppState :=
  mkAppState (imageFile s) v (processedImageUrl s) (options s) (currentStep s)
             (pythonCode s) (cloudwatchLogs s) (isLoading s) (error s)
             (activeTab s).

(** The state [resetWorkflow] leaves. *)
Definition resetWorkflowState (s : AppState) : AppState :=
  ui (snd (resetWorkflow (mkHState s [] emptyLog))).

(** [handleFileChange]: [files] is [e.target.files], [null] or a list. *)
Definition handleFileChange (files : option (list File)) (s : AppState)
  : AppState :=
  match files with
  | Some (file :: _) => resetWorkflowState (setImageFile (Some file) s)
  | _ => s
  end.

(** The effect that follows a change of [imageFile], once the reader has
    fired [onloadend]: [result file] is [reader.result], [null] when the
    file could not be read. With no file the URL is cleared at once. *)
Definition imageFileEffect (result : File -> option string) (s : AppState)
  : AppState :=
  match imageFile s with
  | Some file => setImageUrl (result file) s
  | None => setImageUrl None s
  end.

(** ** App: the status row and the processed pane *)

(** [Object.values(WorkflowStep).filter(v => typeof v === 'string')] *)
Definition stepNames : list string := ["UPLOAD"; "PROCESS"; "MONITOR"; "DONE"].

(** [currentStep > index] and [currentStep === index] *)
Definition isCompleted (s : AppState) (index : Z) : bool :=
  index <? WorkflowStep_value (currentStep s).

Definition isActive (s : AppState) (index : Z) : bool :=
  WorkflowStep_value (currentStep s) =? index.

Definition iconColor (s : AppState) (index : Z) : string :=
  if isCompleted s index then "text-green-500"
  else if isActive s index then "text-aws-orange"
  else "text-gray-400".

(** The spinner of the processed pane: [isLoading && currentStep > 0]. *)
Definition spinnerShown (s : AppState) : bool :=
  isLoading s && (0 <? WorkflowStep_value (currentStep s)).

(** The processed [<img>]: rendered when [processedImageUrl] is truthy. *)
Definition processedImageShown (s : AppState) : bool :=
  match processedImageUrl s with
  | None => false
  | Some v => truthy_string v
  end.

(** ** Replaying a trace *)

(** The state effect of one event of the handler: that of the setter it
    records. *)
Definition applyEvent (e : Event) (s : AppState) : AppState :=
  match e with
  | EvSetIsLoading v => ui (snd (setIsLoading v (mkHState s [] emptyLog)))
  | EvSetProcessedImageUrl v =>
      ui (snd (setProcessedImageUrl v (mkHState s [] emptyLog)))
  | EvSetCurrentStep v => ui (snd (setCurrentStep v (mkHState s [] emptyLog)))
  | EvSetPythonCode v => ui (snd (setPythonCode v (mkHState s [] emptyLog)))
  | EvSetCloudwatchLogs v =>
      ui (snd (setCloudwatchLogs v (mkHState s [] emptyLog)))
  | EvSetError v => ui (snd (setError v (mkHState s [] emptyLog)))
  | EvTimeout _ => s
  | EvStarted _ => s
  | EvAllSettled _ => s
  end.

(** The state after the events of [t], in order, from [s]. *)
Fixpoint replay (t : list Event) (s : AppState) : AppState :=
  match t with
  | [] => s
  | e :: t' => replay t' (applyEvent e s)
  end.

(** The log the three operations leave when the handler starts them in its
    order from a log [l]. *)
Definition operationsLog (ops : Operations) (file : File) (url : string)
    (opts : ProcessingOptions) (l : SvcLog) : SvcLog :=
  let (_, l1) := op_generateProcessingCode ops opts l in
  let (_, l2) := op_generateMonitoringLogs ops opts (name file) l1 in
  snd (op_applyImageProcessing ops url opts l2).

(** Two states with the same inputs to the workflow: file, data URL,
    options and open tab. *)
Definition sameInputs (s1 s2 : AppState) : Prop :=
  imageFile s1 = imageFile s2 /\ imageUrl s1 = imageUrl s2 /\
  options s1 = options s2 /\ activeTab s1 = activeTab s2.

(** ** Sample worlds *)

Definition sampleFile : File := mkFile "cat.png".

Definition sampleUrl : string := "data:image/png;base64,QQ==".

(** A state in which a file has been selected and read, with the logs tab
    open. *)
Definition sampleState : AppState :=
  mkAppState (Some sampleFile) (Some sampleUrl) None
             (mkOptions "large" "sepia") UPLOAD EmptyString EmptyString
             false None TabLogs.

(** A hosted model that answers both requests. *)
Definition answeringApi : Api :=
  fun n _ =>
    ApiResponse (mkResponse (if Nat.eqb n 0
                             then "def lambda_handler(event, context): pass"
                             else "START RequestId: 1f0c")).

(** A hosted model that refuses every request. *)
Definition failingApi : Api :=
  fun _ _ => ApiError (ReasonError "503 Service Unavailable").

Definition workingBrowser : Browser :=
  mkBrowser (fun _ => true) true (fun _ _ => "data:image/jpeg;base64,AA==").

(** A browser in which the image fails to load. *)
Definition brokenImageBrowser : Browser :=
  mkBrowser (fun _ => false) true (fun _ _ => "data:image/jpeg;base64,AA==").

(** The sample state as an earlier, failed run would have left it. *)
Definition staleState : AppState :=
  mkAppState (Some sampleFile) (Some sampleUrl)
             (Some "data:image/jpeg;base64,Zm9v") (mkOptions "large" "sepia")
             MONITOR "old code" "old logs" true
             (Some "Failed to process image.") TabLogs.

(** The values admitted by the type [ProcessingOptions['filter']]. *)
Definition valid_filter (f : string) : Prop :=
  f = "none" \/ f = "grayscale" \/ f = "sepia" \/ f = "invert".

(** A browser whose encoder spells out the canvas it is given. *)
Definition describingBrowser : Browser :=
  mkBrowser (fun _ => true) true
            (fun c type => "data:" ++ type ++ ";filter=" ++ ctx_filter c).



(** * Properties *)

Example showNumber_1024 : showNumber 1024 = "1024".
Proof. reflexivity. Qed.

(** ** The lookup tables *)

(** C4. The options map to fixed constants: 'thumbnail', 'medium' and
    'large' give 150x150, 500x500 and 1024x1024 in the prompt path
    ([getProcessingDimensions]) and the same side in the canvas path
    ([canvasDimensions]); 'grayscale', 'sepia', 'invert' and 'none' give the
    CSS filters 'grayscale(100%)', 'sepia(100%)', 'invert(100%)' and
    'none'. *)
Theorem options_lookup_tables :
  (getProcessingDimensions "thumbnail" = mkDimensions 150 150 /\
   getProcessingDimensions "medium" = mkDimensions 500 500 /\
   getProcessingDimensions "large" = mkDimensions 1024 1024) /\
  (canvasDimensions "thumbnail" = JsNum 150 /\
   canvasDimensions "medium" = JsNum 500 /\
   canvasDimensions "large" = JsNum 1024) /\
  (canvasDimensions "thumbnail"
     = JsNum (width (getProcessingDimensions "thumbnail")) /\
   canvasDimensions "medium"
     = JsNum (width (getProcessingDimensions "medium")) /\
   canvasDimensions "large"
     = JsNum (width (getProcessingDimensions "large"))) /\
  (filterCssOf "grayscale" = "grayscale(100%)" /\
   filterCssOf "sepia" = "sepia(100%)" /\
   filterCssOf "invert" = "invert(100%)" /\
   filterCssOf "none" = "none").
Proof.
  repeat split; reflexivity.
Qed.

(** C9. [getProcessingDimensions] answers on every string: a size other
    than 'thumbnail', 'medium' and 'large' gets 500x500, the answer for
    'medium', and both prompts are then the ones built for 'medium'. *)
Theorem getProcessingDimensions_default (sz f filename : string) :
  sz <> "thumbnail" -> sz <> "medium" -> sz <> "large" ->
  getProcessingDimensions sz = mkDimensions 500 500 /\
  getProcessingDimensions sz = getProcessingDimensions "medium" /\
  codePrompt (mkOptions sz f) = codePrompt (mkOptions "medium" f) /\
  logsPrompt (mkOptions sz f) filename = logsPrompt (mkOptions "medium" f) filename.
Proof.
  intros Ht Hm Hl.
  assert (Hd : getProcessingDimensions sz = mkDimensions 500 500).
  { unfold getProcessingDimensions.
    apply String.eqb_neq in Ht, Hm, Hl. rewrite Ht, Hm, Hl. reflexivity. }
  repeat split.
  - exact Hd.
  - exact Hd.
  - unfold codePrompt. cbn [size filter]. rewrite Hd. reflexivity.
  - unfold logsPrompt. cbn [size filter]. rewrite Hd. reflexivity.
Qed.

Lemma getProcessingDimensions_default_witness :
  getProcessingDimensions "huge" = mkDimensions 500 500 /\
  getProcessingDimensions "huge" = getProcessingDimensions "medium" /\
  codePrompt (mkOptions "huge" "sepia") = codePrompt (mkOptions "medium" "sepia") /\
  logsPrompt (mkOptions "huge" "sepia") "cat.png"
    = logsPrompt (mkOptions "medium" "sepia") "cat.png".
Proof.
  apply (getProcessingDimensions_default "huge" "sepia" "cat.png");
    intro H; discriminate H.
Defined.

(** ** The two generators *)

Section Generators.

Variable api : Api.
Variable opts : ProcessingOptions.
Variable filename : string.
Variable l : SvcLog.

(** A run of [generateProcessingCode], by the answer of the model. *)
Lemma generateProcessingCode_run :
  generateProcessingCode api opts l =
    match api (List.length (requests l)) (codeRequest opts) with
    | ApiResponse r =>
        (Fulfilled (text r),
         mkSvcLog (requests l ++ [codeRequest opts])%list (console l))
    | ApiError e =>
        (Fulfilled "Error: Could not generate code.",
         mkSvcLog (requests l ++ [codeRequest opts])%list
           (console l ++
              [ConsoleError (Some "Error generating processing code:") e])%list)
    end.
Proof.
  unfold generateProcessingCode, try_catch, bind, generateContent, codeRequest.
  destruct (api _ _); reflexivity.
Qed.

(** A run of [generateMonitoringLogs], by the answer of the model. *)
Lemma generateMonitoringLogs_run :
  generateMonitoringLogs api opts filename l =
    match api (List.length (requests l)) (logsRequest opts filename) with
    | ApiResponse r =>
        (Fulfilled (text r),
         mkSvcLog (requests l ++ [logsRequest opts filename])%list (console l))
    | ApiError e =>
        (Fulfilled "Error: Could not generate logs.",
         mkSvcLog (requests l ++ [logsRequest opts filename])%list
           (console l ++ [ConsoleError (Some "Error generating logs:") e])%list)
    end.
Proof.
  unfold generateMonitoringLogs, try_catch, bind, generateContent, logsRequest.
  destruct (api _ _); reflexivity.
Qed.

(** C5. One invocation of either generator adds exactly one request to the
    log, also when the model fails: the failure is caught, logged on the
    console once, and the fixed error string is returned; nothing is sent
    a second time. *)
Theorem generators_one_request_no_retry :
  (requests (snd (generateProcessingCode api opts l))
     = (requests l ++ [codeRequest opts])%list /\
   requests (snd (generateMonitoringLogs api opts filename l))
     = (requests l ++ [logsRequest opts filename])%list) /\
  (fst (generateProcessingCode api opts l) =
     match api (List.length (requests l)) (codeRequest opts) with
     | ApiResponse r => Fulfilled (text r)
     | ApiError _ => Fulfilled "Error: Could not generate code."
     end /\
   fst (generateMonitoringLogs api opts filename l) =
     match api (List.length (requests l)) (logsRequest opts filename) with
     | ApiResponse r => Fulfilled (text r)
     | ApiError _ => Fulfilled "Error: Could not generate logs."
     end) /\
  (console (snd (generateProcessingCode api opts l)) =
     match api (List.length (requests l)) (codeRequest opts) with
     | ApiResponse _ => console l
     | ApiError e =>
         (console l ++
            [ConsoleError (Some "Error generating processing code:") e])%list
     end /\
   console (snd (generateMonitoringLogs api opts filename l)) =
     match api (List.length (requests l)) (logsRequest opts filename) with
     | ApiResponse _ => console l
     | ApiError e =>
         (console l ++ [ConsoleError (Some "Error generating logs:") e])%list
     end).
Proof.
  rewrite generateProcessingCode_run, generateMonitoringLogs_run.
  destruct (api _ (codeRequest opts)); destruct (api _ (logsRequest opts filename));
    repeat split; reflexivity.
Qed.

(** Neither generator rejects. *)
Lemma generators_fulfil :
  is_fulfilled (fst (generateProcessingCode api opts l)) = true /\
  is_fulfilled (fst (generateMonitoringLogs api opts filename l)) = true.
Proof.
  rewrite generateProcessingCode_run, generateMonitoringLogs_run.
  destruct (api _ (codeRequest opts)); destruct (api _ (logsRequest opts filename));
    split; reflexivity.
Qed.

End Generators.

(** ** The local image task *)

(** C7. The preview is made in the browser alone: when the image loads and
    a 2D context is available, [applyImageProcessing] leaves the request log
    as it was and resolves with the JPEG data URL of a canvas that is
    [side] by [side], [side] being the pixel dimension of the selected size
    (150, 500 or 1024), carries the CSS filter of the selected option
    ('none', 'grayscale(100%)', 'sepia(100%)' or 'invert(100%)'), and has the
    uploaded image drawn once over its whole area. *)
Theorem applyImageProcessing_preview (b : Browser) (url : string)
    (opts : ProcessingOptions) (l : SvcLog) :
  imageLoads b url = true -> context2d b = true ->
  valid_size (size opts) -> valid_filter (filter opts) ->
  exists (side : Z) (css : string),
    ((size opts = "thumbnail" /\ side = 150) \/
     (size opts = "medium" /\ side = 500) \/
     (size opts = "large" /\ side = 1024)) /\
    ((filter opts = "none" /\ css = "none") \/
     (filter opts = "grayscale" /\ css = "grayscale(100%)") \/
     (filter opts = "sepia" /\ css = "sepia(100%)") \/
     (filter opts = "invert" /\ css = "invert(100%)")) /\
    canvasDimensions (size opts) = JsNum side /\
    side = width (getProcessingDimensions (size opts)) /\
    side = height (getProcessingDimensions (size opts)) /\
    applyImageProcessing b url opts l =
      (Fulfilled
         (toDataURL b
            (mkCanvas (JsNum side) (JsNum side) css
                      [mkDrawImage url 0 0 (JsNum side) (JsNum side)])
            "image/jpeg"),
       l).
Proof.
  intros Hload Hctx Hsize Hfilter.
  unfold applyImageProcessing, applyImageProcessing_settles, drawProcessed.
  rewrite Hload, Hctx.
  cbn [canvas_width canvas_height ctx_filter drawn createCanvas app].
  destruct Hsize as [Hs | [Hs | Hs]];
    destruct Hfilter as [Hf | [Hf | [Hf | Hf]]]; rewrite Hs, Hf.
  - exists 150, "none". repeat split; auto.
  - exists 150, "grayscale(100%)". repeat split; auto.
  - exists 150, "sepia(100%)". repeat split; auto 6.
  - exists 150, "invert(100%)". repeat split; auto 6.
  - exists 500, "none". repeat split; auto.
  - exists 500, "grayscale(100%)". repeat split; auto.
  - exists 500, "sepia(100%)". repeat split; auto 6.
  - exists 500, "invert(100%)". repeat split; auto 6.
  - exists 1024, "none". repeat split; auto.
  - exists 1024, "grayscale(100%)". repeat split; auto.
  - exists 1024, "sepia(100%)". repeat split; auto 6.
  - exists 1024, "invert(100%)". repeat split; auto 6.
Qed.

Lemma applyImageProcessing_preview_witness :
  exists (side : Z) (css : string),
    (("large" = "thumbnail" /\ side = 150) \/
     ("large" = "medium" /\ side = 500) \/
     ("large" = "large" /\ side = 1024)) /\
    (("sepia" = "none" /\ css = "none") \/
     ("sepia" = "grayscale" /\ css = "grayscale(100%)") \/
     ("sepia" = "sepia" /\ css = "sepia(100%)") \/
     ("sepia" = "invert" /\ css = "invert(100%)")) /\
    canvasDimensions "large" = JsNum side /\
    side = width (getProcessingDimensions "large") /\
    side = height (getProcessingDimensions "large") /\
    applyImageProcessing describingBrowser sampleUrl
                         (mkOptions "large" "sepia") emptyLog =
      (Fulfilled
         (toDataURL describingBrowser
            (mkCanvas (JsNum side) (JsNum side) css
                      [mkDrawImage sampleUrl 0 0 (JsNum side) (JsNum side)])
            "image/jpeg"),
       emptyLog).
Proof.
  apply (applyImageProcessing_preview describingBrowser sampleUrl
           (mkOptions "large" "sepia") emptyLog).
  - reflexivity.
  - reflexivity.
  - right; right; reflexivity.
  - right; right; left; reflexivity.
Defined.

(** ** The workflow handler *)

(** Reduction of the monad and of the setters on explicit states. *)
Ltac handler_cbv :=
  cbv [workflowTry workflowCatch resetWorkflow try_finally try_catch bind ret
       throw start allSettled3 timeout emit setIsLoading setProcessedImageUrl
       setCurrentStep setPythonCode setCloudwatchLogs setError
       handler_console_error console_error message_of
       ui trace svc fst snd app emptyLog requests console
       imageFile imageUrl processedImageUrl options currentStep pythonCode
       cloudwatchLogs isLoading error activeTab].

(** Runs the handler symbolically from a state with an image and names the
    way each of the three calls settles. *)
Ltac run_handler H :=
  let Hf := fresh "Hfile" in
  let Hu := fresh "Hurl" in
  let Ht := fresh "Htruthy" in
  destruct H as (Hf & Hu & Ht);
  unfold click, handleStartWorkflow, operationResults;
  cbn [ui trace svc];
  rewrite Hf, Hu, Ht;
  handler_cbv;
  let c := fresh "code" in
  let g := fresh "logs" in
  let i := fresh "image" in
  let l1 := fresh "l" in
  let l2 := fresh "l" in
  let l3 := fresh "l" in
  let E1 := fresh "Ecode" in
  let E2 := fresh "Elogs" in
  let E3 := fresh "Eimage" in
  destruct (op_generateProcessingCode _ _ _) as [c l1] eqn:E1;
  destruct (op_generateMonitoringLogs _ _ _ _) as [g l2] eqn:E2;
  destruct (op_applyImageProcessing _ _ _ _) as [i l3] eqn:E3;
  cbv beta iota.

(** Splits on the eight combinations of outcomes and runs each to the
    end. *)
Ltac each_outcome code logs image :=
  destruct code as [code | ?]; destruct image as [image | ?];
  destruct logs as [logs | ?]; handler_cbv.

(** Without a file, or without its data URL, the handler returns at once. *)
Lemma handleStartWorkflow_guard (ops : Operations) (h : HState) :
  (forall file url, ~ hasImage (ui h) file url) ->
  handleStartWorkflow ops h = (Fulfilled tt, h).
Proof.
  intros Hno. unfold handleStartWorkflow.
  destruct (imageFile (ui h)) as [file|] eqn:Hf; [|reflexivity].
  destruct (imageUrl (ui h)) as [url|] eqn:Hu; [|reflexivity].
  destruct (truthy_string url) eqn:Ht; [|reflexivity].
  exfalso. apply (Hno file url). repeat split; assumption.
Qed.

(** Either the guard lets the run through or it does not. *)
Lemma hasImage_dec (s : AppState) :
  (exists file url, hasImage s file url) \/
  (forall file url, ~ hasImage s file url).
Proof.
  unfold hasImage.
  destruct (imageFile s) as [file|].
  - destruct (imageUrl s) as [url|].
    + destruct (truthy_string url) eqn:Ht.
      * left. exists file, url. repeat split; assumption.
      * right. intros f u (_ & Hu & Hn). inversion Hu; subst.
        rewrite Ht in Hn. discriminate Hn.
    + right. intros f u (_ & Hu & _). discriminate Hu.
  - right. intros f u (Hf & _). discriminate Hf.
Qed.

(** C10. With no image ([imageFile] or [imageUrl] is null) the handler is
    a no-op: it returns at once, no setter is called, and the state, the
    trace and the log are what they were. The button is disabled exactly
    when no file is selected or a run is in progress. *)
Theorem handleStartWorkflow_no_image_noop (ops : Operations) (h : HState)
    (s : AppState) :
  imageFile (ui h) = None \/ imageUrl (ui h) = None ->
  handleStartWorkflow ops h = (Fulfilled tt, h) /\
  (isButtonDisabled s = true <-> imageFile s = None \/ isLoading s = true).
Proof.
  intros Hnull. split.
  - apply handleStartWorkflow_guard. intros file url (Hf & Hu & _).
    destruct Hnull as [Hn | Hn]; congruence.
  - unfold isButtonDisabled, truthy_file.
    destruct (imageFile s); destruct (isLoading s); cbn; split; intros H;
      try reflexivity; try discriminate H; try (left; reflexivity);
      try (right; reflexivity).
    destruct H as [H | H]; discriminate H.
Qed.

Lemma handleStartWorkflow_no_image_noop_witness :
  handleStartWorkflow (appOperations answeringApi workingBrowser)
                      (mkHState initialState [] emptyLog)
    = (Fulfilled tt, mkHState initialState [] emptyLog) /\
  (isButtonDisabled initialState = true <->
   imageFile initialState = None \/ isLoading initialState = true).
Proof.
  apply (handleStartWorkflow_no_image_noop
           (appOperations answeringApi workingBrowser)
           (mkHState initialState [] emptyLog) initialState).
  left. reflexivity.
Defined.

(** C2. A run that passes the guard starts exactly three operations, the
    two generators and the local image task, one after the other with
    nothing in between, and joins them once, right after the third start.
    Before the join the result states have only been cleared by
    [resetWorkflow]; nothing is started or joined after it. In the shipped
    application the two generators are the only ones to call the hosted
    model, once each. *)
Theorem workflow_starts_three_then_joins (ops : Operations) (api : Api)
    (b : Browser) (s : AppState) (file : File) (url : string) :
  hasImage s file url ->
  (startedOps (trace (snd (click ops s))) =
     [OpGenerateProcessingCode; OpGenerateMonitoringLogs;
      OpApplyImageProcessing] /\
   joins (trace (snd (click ops s))) =
     [[OpGenerateProcessingCode; OpGenerateMonitoringLogs;
       OpApplyImageProcessing]] /\
   exists post,
     trace (snd (click ops s)) = (tracePrefix ++ post)%list /\
     startedOps post = [] /\ joins post = []) /\
  requests (svc (snd (click (appOperations api b) s))) =
    [codeRequest (options s); logsRequest (options s) (name file)].
Proof.
  intros H. split.
  - run_handler H. each_outcome code logs image;
      (split; [reflexivity | split; [reflexivity |]]);
      eexists; (split; [unfold tracePrefix; cbn [app]; reflexivity |]);
      split; reflexivity.
  - run_handler H.
    cbn [appOperations op_generateProcessingCode op_generateMonitoringLogs
         op_applyImageProcessing] in Ecode, Elogs, Eimage.
    rewrite generateProcessingCode_run in Ecode.
    rewrite generateMonitoringLogs_run in Elogs.
    cbn [requests List.length app] in Ecode.
    assert (Hl : requests l = [codeRequest (options s)]).
    { destruct (api 0%nat _); inversion Ecode; reflexivity. }
    assert (Hl0 : requests l0 = [codeRequest (options s);
                                 logsRequest (options s) (name file)]).
    { rewrite Hl in Elogs. cbn [app] in Elogs.
      destruct (api _ (logsRequest _ _)); inversion Elogs; reflexivity. }
    assert (Hl1 : l1 = l0).
    { unfold applyImageProcessing in Eimage. inversion Eimage; reflexivity. }
    subst l1. clear Ecode Elogs Eimage.
    each_outcome code logs image; exact Hl0.
Qed.

Lemma workflow_starts_three_then_joins_witness :
  (startedOps (trace (snd (click (appOperations failingApi brokenImageBrowser)
                                 sampleState))) =
     [OpGenerateProcessingCode; OpGenerateMonitoringLogs;
      OpApplyImageProcessing] /\
   joins (trace (snd (click (appOperations failingApi brokenImageBrowser)
                            sampleState))) =
     [[OpGenerateProcessingCode; OpGenerateMonitoringLogs;
       OpApplyImageProcessing]] /\
   exists post,
     trace (snd (click (appOperations failingApi brokenImageBrowser)
                       sampleState)) = (tracePrefix ++ post)%list /\
     startedOps post = [] /\ joins post = []) /\
  requests (svc (snd (click (appOperations answeringApi workingBrowser)
                            sampleState))) =
    [codeRequest (options sampleState);
     logsRequest (options sampleState) (name sampleFile)].
Proof.
  apply (workflow_starts_three_then_joins
           (appOperations failingApi brokenImageBrowser)
           answeringApi workingBrowser sampleState sampleFile sampleUrl).
  repeat split; reflexivity.
Defined.

(** C6. In a run where the three operations fulfil, the handler's effects
    are, in this order: the reset (with [currentStep] set to UPLOAD), the
    PROCESS transition, the three starts and the join, then [pythonCode] and
    [processedImageUrl] set, the MONITOR transition, [cloudwatchLogs] set,
    the DONE transition, and [isLoading] cleared. [currentStep] is given the
    values UPLOAD, PROCESS, MONITOR, DONE, each once. *)
Theorem successful_run_order (ops : Operations) (s : AppState) (file : File)
    (url code logs image : string) :
  hasImage s file url ->
  operationResults ops file url (options s) emptyLog
    = (Fulfilled code, Fulfilled logs, Fulfilled image) ->
  trace (snd (click ops s)) =
    (tracePrefix ++
     [EvSetPythonCode code; EvSetProcessedImageUrl (Some image);
      EvSetCurrentStep MONITOR;
      EvTimeout 500;
      EvSetCloudwatchLogs logs;
      EvSetCurrentStep DONE;
      EvSetIsLoading false])%list /\
  stepsOf (trace (snd (click ops s))) = [UPLOAD; PROCESS; MONITOR; DONE] /\
  (pythonCode (ui (snd (click ops s))) = code /\
   processedImageUrl (ui (snd (click ops s))) = Some image /\
   cloudwatchLogs (ui (snd (click ops s))) = logs /\
   currentStep (ui (snd (click ops s))) = DONE).
Proof.
  intros H. revert code logs image. run_handler H.
  intros c g i Hres. inversion Hres; subst code logs image.
  handler_cbv. repeat split; reflexivity.
Qed.

Lemma successful_run_order_witness :
  trace (snd (click (appOperations answeringApi workingBrowser) sampleState)) =
    (tracePrefix ++
     [EvSetPythonCode "def lambda_handler(event, context): pass";
      EvSetProcessedImageUrl (Some "data:image/jpeg;base64,AA==");
      EvSetCurrentStep MONITOR;
      EvTimeout 500;
      EvSetCloudwatchLogs "START RequestId: 1f0c";
      EvSetCurrentStep DONE;
      EvSetIsLoading false])%list /\
  stepsOf (trace (snd (click (appOperations answeringApi workingBrowser)
                             sampleState)))
    = [UPLOAD; PROCESS; MONITOR; DONE] /\
  (pythonCode (ui (snd (click (appOperations answeringApi workingBrowser)
                              sampleState)))
     = "def lambda_handler(event, context): pass" /\
   processedImageUrl (ui (snd (click (appOperations answeringApi workingBrowser)
                                     sampleState)))
     = Some "data:image/jpeg;base64,AA==" /\
   cloudwatchLogs (ui (snd (click (appOperations answeringApi workingBrowser)
                                  sampleState)))
     = "START RequestId: 1f0c" /\
   currentStep (ui (snd (click (appOperations answeringApi workingBrowser)
                               sampleState))) = DONE).
Proof.
  apply (successful_run_order (appOperations answeringApi workingBrowser)
           sampleState sampleFile sampleUrl).
  - repeat split; reflexivity.
  - reflexivity.
Defined.





(** C1, as stated, fails: with a hosted model that answers and an image
    that does not load, the log generation completes, yet [cloudwatchLogs]
    stays empty and the logs pane shows its placeholder. *)
Lemma completed_results_stored_fails :
  operationResults (appOperations answeringApi brokenImageBrowser)
                   sampleFile sampleUrl (options sampleState) emptyLog
    = (Fulfilled "def lambda_handler(event, context): pass",
       Fulfilled "START RequestId: 1f0c",
       Rejected (ReasonEvent "error")) /\
  cloudwatchLogs (ui (snd (click (appOperations answeringApi brokenImageBrowser)
                                 sampleState))) = EmptyString /\
  resultPaneText (ui (snd (click (appOperations answeringApi brokenImageBrowser)
                                 sampleState)))
    = "Simulated CloudWatch logs will appear here..." /\
  ~ completed_results_stored (appOperations answeringApi brokenImageBrowser)
      sampleState sampleFile sampleUrl.
Proof.
  split; [reflexivity | split; [reflexivity | split; [reflexivity |]]].
  unfold completed_results_stored.
  change (operationResults (appOperations answeringApi brokenImageBrowser)
            sampleFile sampleUrl (options sampleState) emptyLog)
    with (Fulfilled "def lambda_handler(event, context): pass",
          Fulfilled "START RequestId: 1f0c",
          @Rejected string (ReasonEvent "error")).
  cbv beta iota zeta.
  intros (_ & _ & Hlogs).
  specialize (Hlogs "START RequestId: 1f0c" eq_refl).
  vm_compute in Hlogs. discriminate Hlogs.
Qed.

(** C1, amended. The settled results are examined in the order code,
    image, logs, and the first rejected one ends the examination: a
    completed operation's result is stored when every operation examined
    before it completed too, and a state that gets no result keeps the value
    [resetWorkflow] gave it. *)
Theorem results_stored_up_to_first_failure (ops : Operations) (s : AppState)
    (file : File) (url : string) :
  hasImage s file url ->
  let '(code, logs, image) :=
    operationResults ops file url (options s) emptyLog in
  pythonCode (ui (snd (click ops s))) =
    match code with
    | Fulfilled v => v
    | Rejected _ => EmptyString
    end /\
  processedImageUrl (ui (snd (click ops s))) =
    match code, image with
    | Fulfilled _, Fulfilled v => Some v
    | _, _ => None
    end /\
  cloudwatchLogs (ui (snd (click ops s))) =
    match code, image, logs with
    | Fulfilled _, Fulfilled _, Fulfilled v => v
    | _, _, _ => EmptyString
    end.
Proof.
  intros H. run_handler H.
  each_outcome code logs image; repeat split; reflexivity.
Qed.

Lemma results_stored_up_to_first_failure_witness :
  pythonCode (ui (snd (click (appOperations answeringApi brokenImageBrowser)
                             sampleState)))
    = "def lambda_handler(event, context): pass" /\
  processedImageUrl (ui (snd (click (appOperations answeringApi brokenImageBrowser)
                                    sampleState))) = None /\
  cloudwatchLogs (ui (snd (click (appOperations answeringApi brokenImageBrowser)
                                 sampleState))) = EmptyString.
Proof.
  apply (results_stored_up_to_first_failure
           (appOperations answeringApi brokenImageBrowser)
           sampleState sampleFile sampleUrl).
  repeat split; reflexivity.
Defined.

Lemma not_in_snoc {A : Type} (x y : A) (l : list A) :
  ~ In x l -> x <> y -> ~ In x (l ++ [y])%list.
Proof.
  intros Hl Hxy Hin. apply in_app_or in Hin. destruct Hin as [Hin | Hin].
  - exact (Hl Hin).
  - destruct Hin as [Hin | []]. exact (Hxy (eq_sym Hin)).
Qed.

(** An event with a different head or a different string is not in an
    explicit trace. *)
Ltac not_in_list :=
  let Hin := fresh "Hin" in
  cbn; intros Hin;
  repeat (destruct Hin as [Hin | Hin]; [discriminate Hin |]);
  exact Hin.

(** C8. Neither generator rejects: each fulfils with the model's text, or
    with its fixed error string when the model fails. Started by the
    handler of the shipped application, both therefore arrive fulfilled at
    the join, and the handler never throws 'Failed to generate code.' or
    'Failed to generate logs.': neither message is ever given to [setError]
    or to the console. *)
Theorem generators_never_reject (api : Api) (b : Browser)
    (opts : ProcessingOptions) (filename : string) (lg : SvcLog)
    (file : File) (url : string) (s : AppState) :
  (fst (generateProcessingCode api opts lg) =
     match api (List.length (requests lg)) (codeRequest opts) with
     | ApiResponse r => Fulfilled (text r)
     | ApiError _ => Fulfilled "Error: Could not generate code."
     end /\
   fst (generateMonitoringLogs api opts filename lg) =
     match api (List.length (requests lg)) (logsRequest opts filename) with
     | ApiResponse r => Fulfilled (text r)
     | ApiError _ => Fulfilled "Error: Could not generate logs."
     end) /\
  (is_fulfilled (fst (generateProcessingCode api opts lg)) = true /\
   is_fulfilled (fst (generateMonitoringLogs api opts filename lg)) = true) /\
  (exists code logs image,
     operationResults (appOperations api b) file url opts lg
       = (Fulfilled code, Fulfilled logs, image)) /\
  (~ In (EvSetError (Some "Failed to generate code."))
        (trace (snd (click (appOperations api b) s))) /\
   ~ In (EvSetError (Some "Failed to generate logs."))
        (trace (snd (click (appOperations api b) s))) /\
   ~ In (ConsoleError None (ReasonError "Failed to generate code."))
        (console (svc (snd (click (appOperations api b) s)))) /\
   ~ In (ConsoleError None (ReasonError "Failed to generate logs."))
        (console (svc (snd (click (appOperations api b) s))))).
Proof.
  split; [| split; [| split]].
  - rewrite generateProcessingCode_run, generateMonitoringLogs_run.
    destruct (api _ (codeRequest opts));
      destruct (api _ (logsRequest opts filename)); split; reflexivity.
  - apply generators_fulfil.
  - unfold operationResults, appOperations.
    cbn [op_generateProcessingCode op_generateMonitoringLogs
         op_applyImageProcessing name].
    rewrite generateProcessingCode_run.
    destruct (api _ (codeRequest opts));
      rewrite generateMonitoringLogs_run;
      destruct (api _ (logsRequest opts (name file)));
      unfold applyImageProcessing; do 3 eexists; reflexivity.
  - destruct (hasImage_dec s) as [(file' & url' & H) | Hno].
    + run_handler H.
      cbn [appOperations op_generateProcessingCode op_generateMonitoringLogs
           op_applyImageProcessing] in Ecode, Elogs, Eimage.
      rewrite generateProcessingCode_run in Ecode.
      rewrite generateMonitoringLogs_run in Elogs.
      cbn [requests console List.length app] in Ecode.
      assert (Hl : forall c, ~ In (ConsoleError None c) (console l1)).
      { unfold applyImageProcessing in Eimage.
        injection Eimage as _ Hl1. subst l1.
        destruct (api 0%nat _); injection Ecode as _ Hl0; subst l;
          cbn [requests console app] in Elogs;
          destruct (api _ (logsRequest _ _)); injection Elogs as _ Hl1;
          subst l0; intros c; not_in_list. }
      assert (Hc : is_fulfilled code = true).
      { destruct (api 0%nat _); inversion Ecode; reflexivity. }
      assert (Hg : is_fulfilled logs = true).
      { destruct (api _ (logsRequest _ _)); inversion Elogs; reflexivity. }
      clear Ecode Elogs Eimage.
      each_outcome code logs image;
        try discriminate Hc; try discriminate Hg;
        repeat split;
        first [ not_in_list
              | exact (Hl _)
              | apply not_in_snoc; [exact (Hl _) | discriminate] ].
    + unfold click.
      rewrite (handleStartWorkflow_guard _ (mkHState s [] emptyLog) Hno).
      cbn [snd trace svc console emptyLog In]. tauto.
Qed.

(** * Beyond the claims *)

(** ** The shipped application, end to end *)

(** X1. In the shipped application a click that passes the guard ends in a
    state fixed by the model's two answers and the browser: [pythonCode] is
    the answer to the first request, or the generator's error string;
    when the image loads and a context is there the run ends DONE with no
    error, the JPEG of the drawn canvas, and the answer to the second
    request (or its error string) as logs; otherwise it ends UPLOAD with
    'Failed to process image.', no processed image and no logs. A failure
    of the hosted model never sets [error]. *)
Theorem shipped_click_result (api : Api) (b : Browser) (s : AppState)
    (file : File) (url : string) :
  hasImage s file url ->
  ui (snd (click (appOperations api b) s)) =
    mkAppState
      (imageFile s) (imageUrl s)
      (if (imageLoads b url && context2d b)%bool
       then Some (toDataURL b (drawProcessed url (options s)) "image/jpeg")
       else None)
      (options s)
      (if (imageLoads b url && context2d b)%bool then DONE else UPLOAD)
      (match api 0%nat (codeRequest (options s)) with
       | ApiResponse r => text r
       | ApiError _ => "Error: Could not generate code."
       end)
      (if (imageLoads b url && context2d b)%bool
       then match api 1%nat (logsRequest (options s) (name file)) with
            | ApiResponse r => text r
            | ApiError _ => "Error: Could not generate logs."
            end
       else EmptyString)
      false
      (if (imageLoads b url && context2d b)%bool
       then None
       else Some "Failed to process image.")
      (activeTab s).
Proof.
  intros H. run_handler H.
  cbn [appOperations op_generateProcessingCode op_generateMonitoringLogs
       op_applyImageProcessing] in Ecode, Elogs, Eimage.
  rewrite generateProcessingCode_run in Ecode.
  rewrite generateMonitoringLogs_run in Elogs.
  cbn [requests console List.length app] in Ecode.
  unfold applyImageProcessing, applyImageProcessing_settles in Eimage.
  destruct (api 0%nat _) as [r0 | e0]; injection Ecode as <- <-;
    cbn [requests List.length app] in Elogs;
    destruct (api 1%nat _) as [r1 | e1]; injection Elogs as <- <-;
    destruct (imageLoads b url); destruct (context2d b);
    injection Eimage as <- <-;
    cbv [imageFile imageUrl] in Hfile, Hurl; rewrite Hfile, Hurl;
    reflexivity.
Qed.

Lemma shipped_click_result_witness :
  ui (snd (click (appOperations failingApi workingBrowser) sampleState)) =
    mkAppState (Some sampleFile) (Some sampleUrl)
               (Some "data:image/jpeg;base64,AA==") (mkOptions "large" "sepia")
               DONE "Error: Could not generate code."
               "Error: Could not generate logs." false None TabLogs.
Proof.
  apply (shipped_click_result failingApi workingBrowser sampleState
           sampleFile sampleUrl).
  repeat split; reflexivity.
Defined.

(** ** The handler on any operations *)

(** X2. Whatever the operations do and whatever the state, the promise of
    [handleStartWorkflow] is fulfilled, never rejected, and the run leaves
    the selected file, its data URL, the options and the open tab as they
    were. *)
Theorem handler_fulfils_and_keeps_inputs (ops : Operations) (s : AppState) :
  fst (click ops s) = Fulfilled tt /\
  imageFile (ui (snd (click ops s))) = imageFile s /\
  imageUrl (ui (snd (click ops s))) = imageUrl s /\
  options (ui (snd (click ops s))) = options s /\
  activeTab (ui (snd (click ops s))) = activeTab s.
Proof.
  destruct (hasImage_dec s) as [(file & url & H) | Hno].
  - run_handler H. cbv [imageFile imageUrl] in Hfile, Hurl.
    each_outcome code logs image; rewrite ?Hfile, ?Hurl;
      repeat split; reflexivity.
  - unfold click.
    rewrite (handleStartWorkflow_guard _ (mkHState s [] emptyLog) Hno).
    repeat split; reflexivity.
Qed.

(** X3. What the status row and the processed pane show when a run has
    ended: the spinner is gone; when the three operations completed, the
    first three steps are marked completed and DONE is the active one; when
    any was rejected, UPLOAD is the active step and none is marked
    completed. *)
Theorem status_row_after_run (ops : Operations) (s : AppState) (file : File)
    (url : string) (index : Z) :
  hasImage s file url ->
  0 <= index <= 3 ->
  spinnerShown (ui (snd (click ops s))) = false /\
  isActive (ui (snd (click ops s))) index =
    (if anyRejected (operationResults ops file url (options s) emptyLog)
     then index =? 0 else index =? 3) /\
  isCompleted (ui (snd (click ops s))) index =
    (if anyRejected (operationResults ops file url (options s) emptyLog)
     then false else index <? 3).
Proof.
  intros H Hindex. run_handler H.
  unfold spinnerShown, isActive, isCompleted, anyRejected.
  each_outcome code logs image;
    cbn [is_fulfilled andb negb WorkflowStep_value];
    (split; [reflexivity | split]);
    first [ reflexivity | apply Z.eqb_sym | apply Z.ltb_ge; apply Hindex ].
Qed.

Lemma status_row_after_run_witness :
  spinnerShown (ui (snd (click (appOperations answeringApi workingBrowser)
                               sampleState))) = false /\
  isActive (ui (snd (click (appOperations answeringApi workingBrowser)
                           sampleState))) 3 =
    (if anyRejected (operationResults
                       (appOperations answeringApi workingBrowser)
                       sampleFile sampleUrl (options sampleState) emptyLog)
     then 3 =? 0 else 3 =? 3) /\
  isCompleted (ui (snd (click (appOperations answeringApi workingBrowser)
                              sampleState))) 3 =
    (if anyRejected (operationResults
                       (appOperations answeringApi workingBrowser)
                       sampleFile sampleUrl (options sampleState) emptyLog)
     then false else 3 <? 3).
Proof.
  apply (status_row_after_run (appOperations answeringApi workingBrowser)
           sampleState sampleFile sampleUrl 3).
  - repeat split; reflexivity.
  - lia.
Defined.

(** X5. From its first effect to its last, a run keeps [isLoading] set: in
    the state after any proper, non-empty part of the trace the button is
    disabled, so a run cannot be started again from the button while one is
    under way. *)
Theorem button_disabled_during_run (ops : Operations) (s : AppState)
    (file : File) (url : string) (k : nat) :
  hasImage s file url ->
  (0 < k < List.length (trace (snd (click ops s))))%nat ->
  isLoading (replay (firstn k (trace (snd (click ops s)))) s) = true /\
  isButtonDisabled (replay (firstn k (trace (snd (click ops s)))) s) = true.
Proof.
  intros H. revert k.
  assert (Hb : forall s', isLoading s' = true -> isButtonDisabled s' = true).
  { intros s' Hl. unfold isButtonDisabled. rewrite Hl. apply Bool.orb_true_r. }
  destruct s. run_handler H.
  each_outcome code logs image; intros k [Hk0 Hk];
    cbn [List.length] in Hk;
    (split; [| apply Hb]);
    do 20 (destruct k as [| k]; [first [lia | reflexivity] |]); lia.
Qed.

Lemma button_disabled_during_run_witness :
  isLoading (replay (firstn 12 (trace (snd (click
               (appOperations answeringApi workingBrowser) sampleState))))
               sampleState) = true /\
  isButtonDisabled (replay (firstn 12 (trace (snd (click
               (appOperations answeringApi workingBrowser) sampleState))))
               sampleState) = true.
Proof.
  apply (button_disabled_during_run
           (appOperations answeringApi workingBrowser) sampleState
           sampleFile sampleUrl 12).
  - repeat split; reflexivity.
  - cbv. split; repeat constructor.
Defined.

(** X6. Nothing of an earlier run survives a new one: two states with the
    same file, data URL, options and open tab end a run in the same state,
    with the same trace and log, whatever results, step, error or loading
    flag either held before. *)
Theorem previous_results_never_leak (ops : Operations) (s1 s2 : AppState)
    (file : File) (url : string) :
  hasImage s1 file url ->
  sameInputs s1 s2 ->
  click ops s1 = click ops s2.
Proof.
  intros (Hf & Hu & Ht) (Hsf & Hsu & Hso & Hst).
  destruct s1, s2. cbn [imageFile imageUrl options activeTab] in *.
  subst. unfold click, handleStartWorkflow.
  cbn [ui imageFile imageUrl options]. rewrite Ht.
  handler_cbv.
  destruct (op_generateProcessingCode _ _ _) as [code l].
  destruct (op_generateMonitoringLogs _ _ _ _) as [logs l0].
  destruct (op_applyImageProcessing _ _ _ _) as [image l1].
  destruct code, image, logs; reflexivity.
Qed.

Lemma previous_results_never_leak_witness :
  click (appOperations answeringApi workingBrowser) sampleState
    = click (appOperations answeringApi workingBrowser) staleState.
Proof.
  apply (previous_results_never_leak
           (appOperations answeringApi workingBrowser) sampleState staleState
           sampleFile sampleUrl).
  - repeat split; reflexivity.
  - repeat split; reflexivity.
Defined.

(** ** The file input, the reader and the reset *)

(** X7. On a first upload, between the selection of a file and the reader
    delivering its data URL, the button is enabled but a click does
    nothing: the handler returns at the guard, with no setter called. *)
Theorem selected_file_unread_click_noop (ops : Operations) (file : File)
    (rest : list File) (s : AppState) :
  imageUrl s = None ->
  isLoading s = false ->
  isButtonDisabled (handleFileChange (Some (file :: rest)) s) = false /\
  click ops (handleFileChange (Some (file :: rest)) s) =
    (Fulfilled tt,
     mkHState (handleFileChange (Some (file :: rest)) s) [] emptyLog).
Proof.
  intros Hurl Hload. split.
  - unfold isButtonDisabled. cbn. exact Hload.
  - unfold click. apply handleStartWorkflow_guard.
    intros f u (_ & Hu & _). cbn in Hu. rewrite Hurl in Hu. discriminate Hu.
Qed.

Lemma selected_file_unread_click_noop_witness :
  isButtonDisabled (handleFileChange (Some [sampleFile]) initialState) = false /\
  click (appOperations answeringApi workingBrowser)
        (handleFileChange (Some [sampleFile]) initialState) =
    (Fulfilled tt,
     mkHState (handleFileChange (Some [sampleFile]) initialState) [] emptyLog).
Proof.
  apply (selected_file_unread_click_noop
           (appOperations answeringApi workingBrowser) sampleFile []
           initialState).
  - reflexivity.
  - reflexivity.
Defined.

(** X8. When the reader fails on the selected file, the effect stores a
    null URL, the earlier image's included: the button stays enabled
    (outside a run) while a click does nothing. *)
Theorem failed_read_click_noop (ops : Operations) (result : File -> option string)
    (file : File) (s : AppState) :
  imageFile s = Some file ->
  result file = None ->
  isLoading s = false ->
  imageUrl (imageFileEffect result s) = None /\
  isButtonDisabled (imageFileEffect result s) = false /\
  click ops (imageFileEffect result s) =
    (Fulfilled tt, mkHState (imageFileEffect result s) [] emptyLog).
Proof.
  intros Hfile Hres Hload.
  assert (Hu : imageUrl (imageFileEffect result s) = None).
  { unfold imageFileEffect. rewrite Hfile, Hres. reflexivity. }
  split; [exact Hu | split].
  - unfold isButtonDisabled, imageFileEffect. rewrite Hfile, Hres.
    cbn. rewrite Hfile. exact Hload.
  - unfold click. apply handleStartWorkflow_guard.
    intros f u (_ & Hu' & _). cbn [ui] in Hu'. rewrite Hu in Hu'.
    discriminate Hu'.
Qed.

Lemma failed_read_click_noop_witness :
  imageUrl (imageFileEffect (fun _ => None) sampleState) = None /\
  isButtonDisabled (imageFileEffect (fun _ => None) sampleState) = false /\
  click (appOperations answeringApi workingBrowser)
        (imageFileEffect (fun _ => None) sampleState) =
    (Fulfilled tt,
     mkHState (imageFileEffect (fun _ => None) sampleState) [] emptyLog).
Proof.
  apply (failed_read_click_noop (appOperations answeringApi workingBrowser)
           (fun _ => None) sampleFile sampleState).
  - reflexivity.
  - reflexivity.
  - reflexivity.
Defined.

(** X9. Selecting another file keeps the data URL of the previous one until
    the reader has finished: in between, the guard lets a run through with
    the new file and the old image, and the results of the earlier run are
    cleared. Once the reader delivers a non-empty URL, the run uses that
    one. *)
Theorem new_file_keeps_old_url_until_read (result : File -> option string)
    (file newFile : File) (rest : list File) (url newUrl : string)
    (s : AppState) :
  hasImage s file url ->
  result newFile = Some newUrl ->
  truthy_string newUrl = true ->
  hasImage (handleFileChange (Some (newFile :: rest)) s) newFile url /\
  (processedImageUrl (handleFileChange (Some (newFile :: rest)) s) = None /\
   pythonCode (handleFileChange (Some (newFile :: rest)) s) = EmptyString /\
   cloudwatchLogs (handleFileChange (Some (newFile :: rest)) s) = EmptyString /\
   error (handleFileChange (Some (newFile :: rest)) s) = None /\
   currentStep (handleFileChange (Some (newFile :: rest)) s) = UPLOAD) /\
  hasImage (imageFileEffect result (handleFileChange (Some (newFile :: rest)) s))
           newFile newUrl.
Proof.
  intros (Hf & Hu & Ht) Hres Hnew. split; [| split].
  - repeat split; [exact Hu | exact Ht].
  - repeat split.
  - unfold imageFileEffect.
    change (imageFile (handleFileChange (Some (newFile :: rest)) s))
      with (Some newFile).
    cbv beta iota. rewrite Hres. repeat split. exact Hnew.
Qed.

Lemma new_file_keeps_old_url_until_read_witness :
  hasImage (handleFileChange (Some [mkFile "dog.png"]) sampleState)
           (mkFile "dog.png") sampleUrl /\
  (processedImageUrl (handleFileChange (Some [mkFile "dog.png"]) sampleState)
     = None /\
   pythonCode (handleFileChange (Some [mkFile "dog.png"]) sampleState)
     = EmptyString /\
   cloudwatchLogs (handleFileChange (Some [mkFile "dog.png"]) sampleState)
     = EmptyString /\
   error (handleFileChange (Some [mkFile "dog.png"]) sampleState) = None /\
   currentStep (handleFileChange (Some [mkFile "dog.png"]) sampleState)
     = UPLOAD) /\
  hasImage (imageFileEffect (fun _ => Some "data:image/png;base64,Rg==")
              (handleFileChange (Some [mkFile "dog.png"]) sampleState))
           (mkFile "dog.png") "data:image/png;base64,Rg==".
Proof.
  apply (new_file_keeps_old_url_until_read
           (fun _ => Some "data:image/png;base64,Rg==")
           sampleFile (mkFile "dog.png") [] sampleUrl
           "data:image/png;base64,Rg==" sampleState).
  - repeat split; reflexivity.
  - reflexivity.
  - reflexivity.
Defined.

(** X10. [resetWorkflow] is idempotent, and after it the result pane shows
    the placeholder of the open tab, no processed image and no spinner are
    rendered, no step is marked completed and UPLOAD is the active one; the
    button is as it was. *)
Theorem resetWorkflow_clears_what_is_shown (s : AppState) (index : Z) :
  resetWorkflowState (resetWorkflowState s) = resetWorkflowState s /\
  resultPaneText (resetWorkflowState s) =
    match activeTab s with
    | TabCode => "Python code for the Lambda function will appear here..."
    | TabLogs => "Simulated CloudWatch logs will appear here..."
    end /\
  processedImageShown (resetWorkflowState s) = false /\
  spinnerShown (resetWorkflowState s) = false /\
  isCompleted (resetWorkflowState s) index = (index <? 0) /\
  isActive (resetWorkflowState s) index = (0 =? index) /\
  isButtonDisabled (resetWorkflowState s) = isButtonDisabled s.
Proof.
  repeat split; try reflexivity.
  unfold spinnerShown. cbn. apply Bool.andb_false_r.
Qed.

(** ** The status row *)

(** X11. The status row colours the four steps in one pattern: green for
    the steps before the current one, orange for the current one, grey for
    those after it. Exactly one step is active, and the last one, DONE, is
    never marked completed. *)
Theorem status_row_pattern (s : AppState) :
  map (iconColor s) [0; 1; 2; 3] =
    (repeat "text-green-500" (Z.to_nat (WorkflowStep_value (currentStep s)))
     ++ ["text-aws-orange"]
     ++ repeat "text-gray-400"
          (3 - Z.to_nat (WorkflowStep_value (currentStep s))))%list /\
  List.filter (isActive s) [0; 1; 2; 3] = [WorkflowStep_value (currentStep s)] /\
  isCompleted s (Z.of_nat (List.length stepNames) - 1) = false.
Proof.
  unfold iconColor, isCompleted, isActive.
  destruct (currentStep s); repeat split; reflexivity.
Qed.

(** ** Options and the canvas *)

(** X12. On the values the two selects offer, the options are read back
    from the canvas: two selections that draw the same canvas are the same
    selection. *)
Theorem options_determine_canvas (url : string) (o1 o2 : ProcessingOptions) :
  valid_size (size o1) -> valid_filter (filter o1) ->
  valid_size (size o2) -> valid_filter (filter o2) ->
  drawProcessed url o1 = drawProcessed url o2 ->
  o1 = o2.
Proof.
  destruct o1 as [s1 f1], o2 as [s2 f2]. cbn [size filter].
  intros [-> | [-> | ->]] [-> | [-> | [-> | ->]]]
         [-> | [-> | ->]] [-> | [-> | [-> | ->]]] Heq;
    cbv in Heq; first [reflexivity | discriminate Heq].
Qed.

Lemma options_determine_canvas_witness :
  mkOptions "large" "sepia" = mkOptions "large" "sepia".
Proof.
  apply (options_determine_canvas sampleUrl (mkOptions "large" "sepia")
           (mkOptions "large" "sepia")).
  - right; right; reflexivity.
  - right; right; left; reflexivity.
  - right; right; reflexivity.
  - right; right; left; reflexivity.
  - reflexivity.
Defined.

(** ** The handler and the console *)

(** X13. The handler sends nothing to the hosted model itself, and writes
    to the console exactly when the run fails: one line, carrying the
    message it also stores in [error]; a run that succeeds adds none. *)
Theorem handler_logs_the_error_it_shows (ops : Operations) (s : AppState)
    (file : File) (url : string) :
  hasImage s file url ->
  requests (svc (snd (click ops s))) =
    requests (operationsLog ops file url (options s) emptyLog) /\
  console (svc (snd (click ops s))) =
    (console (operationsLog ops file url (options s) emptyLog) ++
     match error (ui (snd (click ops s))) with
     | Some msg => [ConsoleError None (ReasonError msg)]
     | None => []
     end)%list.
Proof.
  intros H. unfold operationsLog. run_handler H.
  each_outcome code logs image; split;
    first [reflexivity | symmetry; apply app_nil_r].
Qed.

Lemma handler_logs_the_error_it_shows_witness :
  requests (svc (snd (click (appOperations failingApi brokenImageBrowser)
                            sampleState))) =
    requests (operationsLog (appOperations failingApi brokenImageBrowser)
                sampleFile sampleUrl (options sampleState) emptyLog) /\
  console (svc (snd (click (appOperations failingApi brokenImageBrowser)
                           sampleState))) =
    (console (operationsLog (appOperations failingApi brokenImageBrowser)
                sampleFile sampleUrl (options sampleState) emptyLog) ++
     match error (ui (snd (click (appOperations failingApi brokenImageBrowser)
                                 sampleState))) with
     | Some msg => [ConsoleError None (ReasonError msg)]
     | None => []
     end)%list.
Proof.
  apply (handler_logs_the_error_it_shows
           (appOperations failingApi brokenImageBrowser) sampleState
           sampleFile sampleUrl).
  repeat split; reflexivity.
Defined.
